(** * Ethereum confirmation layouts (core/src/apps/ethereum/layout.py)

    A shallow embedding of the amount formatter, the breadcrumb truncation
    and the confirmation flows of the Ethereum app, with the properties of
    its specification stated and proved over it.

    Python [int] is [Z], [str] is [string], [bytes] is [list byte], an
    optional argument ([X | None]) is an [option].  A flow that awaits
    layout primitives is a tree of requests ([layout]); running it against
    the operator's answers yields the screens shown, in order. *)

From Stdlib Require Import ZArith Lia Bool List Strings.Ascii Strings.String Strings.Byte.
From Stdlib Require Import Numbers.DecimalString Numbers.DecimalPos.
Import ListNotations.

Set Warnings "-register-all".

Open Scope string_scope.
Open Scope Z_scope.

(* ================================================================= *)
(** ** Python built-ins used by the module *)

Module Py.

(** [str(n)] for an [int]: decimal digits, ["-"] in front when negative. *)
Definition str (n : Z) : string :=
  NilEmpty.string_of_int (Z.to_int n).

(** [len(s)]. *)
Definition len (s : string) : Z := Z.of_nat (String.length s).

(** [sep.join(parts)]. *)
Definition join (sep : string) (parts : list string) : string :=
  String.concat sep parts.

(** [s[start:]]: a negative [start] counts from the end, and an index
    outside the string is clamped to it. *)
Definition slice_from (start : Z) (s : string) : string :=
  let lo := if start <? 0 then Z.max (len s + start) 0
            else Z.min start (len s) in
  substring (Z.to_nat lo) (Z.to_nat (len s - lo)) s.

(** [s.rstrip(c)] for a one-character [c]: drops every trailing [c]. *)
Fixpoint rstrip (c : ascii) (s : string) : string :=
  match s with
  | EmptyString => EmptyString
  | String a s' =>
      let r := rstrip c s' in
      if (r =? "")%string && Ascii.eqb a c then EmptyString else String a r
  end.

(** [c * n] for a one-character string [c]. *)
Fixpoint replicate (n : nat) (c : ascii) : string :=
  match n with
  | O => EmptyString
  | S n' => String c (replicate n' c)
  end.

(** The format specification [0{width}] applied to the digits [s] of a
    non-negative number: zeros on the left up to [width] characters. *)
Definition zfill (width : Z) (s : string) : string :=
  replicate (Z.to_nat (width - len s)) "0" ++ s.

(** Truthiness of a [bytes] value: empty is false. *)
Definition truthy (b : list byte) : bool :=
  match b with
  | [] => false
  | _ :: _ => true
  end.

End Py.

(* ================================================================= *)
(** ** Messages and enumerations *)

(** Modelled from the spec: [trezor.enums.EthereumDataType], declared
    outside this module; the data-type tag of a typed field,
    [enum{ADDRESS, BYTES, STRING, UINT, INT, BOOL, ...}] with the two
    composite kinds (array, struct) that a field can also have. *)
Inductive EthereumDataType : Type :=
| UINT | INT | BYTES | STRING | BOOL | ADDRESS | ARRAY | STRUCT.

(** Modelled from the spec: [trezor.messages.EthereumFieldType], declared
    outside this module; the shape of one member of a struct.  The
    layouts read [data_type] only and hand the whole descriptor to
    [get_type_name]. *)
Inductive EthereumFieldType : Type :=
| FieldType (dt : EthereumDataType) (size : option Z)
            (entry_type : option EthereumFieldType)
            (struct_name : option string).

Definition data_type (f : EthereumFieldType) : EthereumDataType :=
  match f with FieldType dt _ _ _ => dt end.

(** Modelled from the spec: [trezor.messages.EthereumStructMember],
    declared outside this module; a named member of a struct. *)
Record EthereumStructMember : Type := {
  member_type : EthereumFieldType;
  name : string
}.

(** Modelled from the spec: the currency descriptors
    [{ symbol: string, decimals: uint }], declared outside this module
    ([trezor.messages]).  The native currency of a network carries a
    symbol only, its decimals are fixed at 18 by the formatter. *)
Record EthereumNetworkInfo : Type := {
  network_symbol : string
}.

Record EthereumTokenInfo : Type := {
  symbol : string;
  decimals : Z
}.

(** [trezor.enums.ButtonRequestType]: the one value the module names. *)
Inductive ButtonRequestType : Type := SignTx.

(** [ui.NORMAL] and [ui.DEMIBOLD]. *)
Inductive font : Type := NORMAL | DEMIBOLD.

(* ================================================================= *)
(** ** [trezor.strings] *)

(** Modelled from the spec: [trezor.strings.format_amount], the external
    numeric-formatting primitive, is not part of this module.  It renders
    [amount / 10^decimals] exactly, in fixed point with [decimals]
    fractional digits, and drops trailing zeros and a dangling point
    (["2"] for two whole units).  A negative amount keeps its sign.  The
    spec describes no digit grouping, and none is applied. *)
Definition format_amount (amount decimals : Z) : string :=
  let sign := if amount <? 0 then "-" else "" in
  let amount := Z.abs amount in
  let d := 10 ^ decimals in
  let integer := amount / d in
  let decimal := amount mod d in
  Py.rstrip "."
    (Py.rstrip "0"
       (sign ++ Py.str integer ++ "." ++ Py.zfill decimals (Py.str decimal))).

(** [template.format(count=..., plural=...)] for a template whose fields
    are [{count}] and [{plural}]: one pass from left to right, and the
    text put in place of a field is not scanned again.  [skip] counts the
    characters of a field still to be dropped. *)
Fixpoint format_fields (count plural template : string) (skip : nat)
    : string :=
  match template with
  | EmptyString => EmptyString
  | String c rest =>
      match skip with
      | S k => format_fields count plural rest k
      | O =>
          if prefix "{count}" template
          then count ++ format_fields count plural rest 6
          else if prefix "{plural}" template
          then plural ++ format_fields count plural rest 7
          else String c (format_fields count plural rest 0)
      end
  end.

Definition is_vowel (c : ascii) : bool :=
  existsb (Ascii.eqb c) (list_ascii_of_string "aeiouy").

Definition is_sibilant (c : ascii) : bool :=
  existsb (Ascii.eqb c) (list_ascii_of_string "hsxz").

(** Modelled from the spec: the plural that [pluralize] puts in place of
    a noun, "pluralized correctly" as for a regular English noun: ["ies"]
    for a final ["y"] that follows a consonant, ["es"] after a final
    ["h"], ["s"], ["x"] or ["z"], and ["s"] otherwise. *)
Fixpoint plural_of (noun : string) : string :=
  match noun with
  | EmptyString => "s"
  | String c EmptyString =>
      if is_sibilant c then String c "es" else String c "s"
  | String c (String d EmptyString as rest) =>
      if Ascii.eqb d "y" && negb (is_vowel c) then String c "ies"
      else String c (plural_of rest)
  | String c rest => String c (plural_of rest)
  end.

(** Modelled from the spec: [trezor.strings.format_plural], the external
    [pluralize(template, count, noun)], is not part of this module.  It
    substitutes the count and the noun into the template, the noun in the
    singular when the count is 1 and in its plural otherwise. *)
Definition format_plural (template : string) (count : Z) (plural : string)
    : string :=
  let noun := if count =? 1 then plural else plural_of plural in
  format_fields (Py.str count) noun template 0.

(* ================================================================= *)
(** ** The amount formatter and the truncation of titles *)

(** [format_ethereum_amount(value, token, network)]. *)
Definition format_ethereum_amount
    (value : Z) (token : option EthereumTokenInfo)
    (network : EthereumNetworkInfo) : string :=
  let '(suffix, decs) :=
    match token with
    | Some t => (symbol t, decimals t)
    | None => (network_symbol network, 18)
    end in
  let '(suffix, decs) :=
    if (decs >? 9) && (value <? 10 ^ (decs - 9))
    then ("Wei " ++ suffix, 0)
    else (suffix, decs) in
  format_amount value decs ++ " " ++ suffix.

(** [limit_str(s, limit)]; callers that omit [limit] get [default_limit]. *)
Definition default_limit : Z := 16.

Definition limit_str (s : string) (limit : Z) : string :=
  if Py.len s <=? limit + 2 then s
  else ".." ++ Py.slice_from (- limit) s.

(* ================================================================= *)
(** ** Layout primitives and flows *)

(** The value handed to [confirm_blob]: decoded text or raw bytes. *)
Inductive blob : Type :=
| Text (s : string)
| Raw (b : list byte).

(** A request to one of the primitives of [trezor.ui.layouts], with the
    arguments the module passes.  An argument the call site leaves out is
    [None]. *)
Inductive ui_call : Type :=
| confirm_output (address amount : string) (br_code : ButtonRequestType)
| confirm_amount (title amount description : string)
| confirm_total (total_amount fee_amount total_label fee_label : string)
| confirm_blob (br_type title : string) (data : blob) (description : string)
               (br_code : option ButtonRequestType) (ask_pagination : bool)
| confirm_text (br_type title data description : string)
| should_show_more (title : string) (para : list (font * string))
                   (button_text br_type : string).

(** A flow: it returns, or awaits a primitive and goes on with what the
    primitive returned.  [should_show_more] returns the operator's choice;
    the confirmations return nothing of use and their flows ignore it. *)
Inductive layout (A : Type) : Type :=
| Return (a : A)
| Await (c : ui_call) (k : bool -> layout A).

Arguments Return {A} a.
Arguments Await {A} c k.

Fixpoint bind {A B : Type} (m : layout A) (f : A -> layout B) : layout B :=
  match m with
  | Return a => f a
  | Await c k => Await c (fun b => bind (k b) f)
  end.

Notation "m ;; n" := (bind m (fun _ => n))
  (at level 61, right associativity).

(** [await primitive(...)] with the result dropped, and with it kept. *)
Definition confirm (c : ui_call) : layout unit :=
  Await c (fun _ => Return tt).

Definition ask (c : ui_call) : layout bool :=
  Await c (fun b => Return b).

(** Running a flow against the operator: [Some b] answers a request (and
    is what [should_show_more] returns), [None] declines it, which raises
    in the primitive and ends the flow, as the module catches nothing.
    The result is the requests made, in order, and the value returned if
    the flow came to its end. *)
Fixpoint run {A : Type} (m : layout A) (answers : list (option bool))
    : list ui_call * option A :=
  match m with
  | Return a => ([], Some a)
  | Await c k =>
      match answers with
      | Some b :: rest =>
          let '(shown, r) := run (k b) rest in (c :: shown, r)
      | _ => ([c], None)
      end
  end.

Definition shown {A : Type} (m : layout A) (answers : list (option bool))
    : list ui_call :=
  fst (run m answers).

Definition result {A : Type} (m : layout A) (answers : list (option bool))
    : option A :=
  snd (run m answers).

(** The functions of [.helpers] the layouts call; their code is outside
    this module. *)
Class Helpers : Type := {
  address_from_bytes : list byte -> EthereumNetworkInfo -> string;
  get_type_name : EthereumFieldType -> string;
  decode_typed_data : list byte -> string -> string
}.

Section Layouts.

Context {helpers : Helpers}.

Definition require_confirm_tx
    (to_bytes : list byte) (value : Z) (network : EthereumNetworkInfo)
    (token : option EthereumTokenInfo) : layout unit :=
  let to_str :=
    if Py.truthy to_bytes then address_from_bytes to_bytes network
    else "new contract?" in
  confirm (confirm_output to_str
             (format_ethereum_amount value token network) SignTx).

Definition require_confirm_fee
    (spending gas_price gas_limit : Z) (network : EthereumNetworkInfo)
    (token : option EthereumTokenInfo) : layout unit :=
  confirm (confirm_amount "Confirm fee"
             (format_ethereum_amount gas_price None network)
             "Gas price:") ;;
  confirm (confirm_total
             (format_ethereum_amount spending token network)
             (format_ethereum_amount (gas_price * gas_limit) None network)
             "Amount sent:" "Maximum fee:").

Definition require_confirm_eip1559_fee
    (spending max_priority_fee max_gas_fee gas_limit : Z)
    (network : EthereumNetworkInfo) (token : option EthereumTokenInfo)
    : layout unit :=
  confirm (confirm_amount "Confirm fee"
             (format_ethereum_amount max_gas_fee None network)
             "Maximum fee per gas") ;;
  confirm (confirm_amount "Confirm fee"
             (format_ethereum_amount max_priority_fee None network)
             "Priority fee per gas") ;;
  confirm (confirm_total
             (format_ethereum_amount spending token network)
             (format_ethereum_amount (max_gas_fee * gas_limit) None network)
             "Amount sent:" "Maximum fee:").

Definition require_confirm_data (data : list byte) (data_total : Z)
    : layout unit :=
  confirm (confirm_blob "confirm_data" "Confirm data" (Raw data)
             ("Size: " ++ Py.str data_total ++ " bytes")
             (Some SignTx) true).

Definition confirm_empty_typed_message : layout unit :=
  confirm (confirm_text "confirm_empty_typed_message" "Confirm message"
             "" "No message field").

Definition should_show_domain (name version : list byte) : layout bool :=
  let domain_name := decode_typed_data name "string" in
  let domain_version := decode_typed_data version "string" in
  let para := [ (NORMAL, "Name and version");
                (DEMIBOLD, domain_name);
                (DEMIBOLD, domain_version) ] in
  ask (should_show_more "Confirm domain" para "Show full domain"
         "should_show_domain").

(** [title] and [button_text] default to ["Confirm struct"] and
    ["Show full struct"] when the caller omits them. *)
Definition should_show_struct
    (description : string) (data_members : list EthereumStructMember)
    (title button_text : string) : layout bool :=
  let para :=
    [ (DEMIBOLD, description);
      (NORMAL, format_plural "Contains {count} {plural}"
                 (Z.of_nat (List.length data_members)) "key");
      (NORMAL, Py.join ", " (map name data_members)) ] in
  ask (should_show_more title para button_text "should_show_struct").

Definition should_show_array
    (parent_objects : list string) (data_type : string) (size : Z)
    : layout bool :=
  let para :=
    [ (NORMAL, format_plural "Array of {count} {plural}" size data_type) ]
  in
  ask (should_show_more
         (limit_str (Py.join "." parent_objects) default_limit)
         para "Show full array" "should_show_array").

Definition confirm_typed_value
    (name : string) (value : list byte) (parent_objects : list string)
    (field : EthereumFieldType) (array_index : option Z) : layout unit :=
  let type_name := get_type_name field in
  let '(title, description) :=
    match array_index with
    | Some i =>
        (limit_str (Py.join "." (parent_objects ++ [name])) default_limit,
         "[" ++ Py.str i ++ "] (" ++ type_name ++ ")")
    | None =>
        (limit_str (Py.join "." parent_objects) default_limit,
         name ++ " (" ++ type_name ++ ")")
    end in
  let data := decode_typed_data value type_name in
  match data_type field with
  | ADDRESS | BYTES =>
      confirm (confirm_blob "confirm_typed_value" title (Text data)
                 description None true)
  | _ =>
      confirm (confirm_text "confirm_typed_value" title data description)
  end.

End Layouts.

(* ================================================================= *)
(** ** Notions the specification speaks in *)

(** The currency a call formats in: the token's descriptor when one is
    supplied, the network's symbol with 18 decimals otherwise. *)
Definition currency_symbol
    (token : option EthereumTokenInfo) (network : EthereumNetworkInfo)
    : string :=
  match token with
  | Some t => symbol t
  | None => network_symbol network
  end.

Definition currency_decimals (token : option EthereumTokenInfo) : Z :=
  match token with
  | Some t => decimals t
  | None => 18
  end.

(** The formatter as the specification words it (4.1, 7): a negative
    value is rejected before anything is formatted. *)
Definition format_rejecting_negative
    (value : Z) (token : option EthereumTokenInfo)
    (network : EthereumNetworkInfo) : option string :=
  if value <? 0 then None
  else Some (format_ethereum_amount value token network).

Definition is_digit (c : ascii) : bool :=
  match c with
  | "0" | "1" | "2" | "3" | "4" | "5" | "6" | "7" | "8" | "9" => true
  | _ => false
  end%char.

Fixpoint all_digits (s : string) : bool :=
  match s with
  | EmptyString => true
  | String c s' => is_digit c && all_digits s'
  end.

(** [t] is the last [n] characters of [s]. *)
Definition last_chars (n : nat) (s t : string) : Prop :=
  String.length t = n /\ exists p, s = p ++ t.

(** Title and description of a screen, for the primitives that have
    them. *)
Definition call_title (c : ui_call) : option string :=
  match c with
  | confirm_amount title _ _ => Some title
  | confirm_blob _ title _ _ _ _ => Some title
  | confirm_text _ title _ _ => Some title
  | should_show_more title _ _ _ => Some title
  | confirm_output _ _ _ | confirm_total _ _ _ _ => None
  end.

Definition call_description (c : ui_call) : option string :=
  match c with
  | confirm_amount _ _ description => Some description
  | confirm_blob _ _ _ description _ _ => Some description
  | confirm_text _ _ _ description => Some description
  | confirm_output _ _ _ | confirm_total _ _ _ _
  | should_show_more _ _ _ _ => None
  end.

(** The amounts a screen shows for gas and fees, and for the spending. *)
Definition fee_texts (c : ui_call) : list string :=
  match c with
  | confirm_amount _ amount _ => [amount]
  | confirm_total _ fee_amount _ _ => [fee_amount]
  | _ => []
  end.

Definition spending_texts (c : ui_call) : list string :=
  match c with
  | confirm_total total_amount _ _ _ => [total_amount]
  | _ => []
  end.

(* ================================================================= *)
(** ** Concrete values for the worked cases *)

Definition ETH : EthereumTokenInfo := {| symbol := "ETH"; decimals := 18 |}.

Definition mainnet : EthereumNetworkInfo := {| network_symbol := "ETH" |}.

Definition hex_digit (n : N) : ascii :=
  match n with
  | 0 => "0" | 1 => "1" | 2 => "2" | 3 => "3" | 4 => "4" | 5 => "5"
  | 6 => "6" | 7 => "7" | 8 => "8" | 9 => "9" | 10 => "a" | 11 => "b"
  | 12 => "c" | 13 => "d" | 14 => "e" | _ => "f"
  end%N%char.

Fixpoint hexlify (b : list byte) : string :=
  match b with
  | [] => EmptyString
  | x :: b' =>
      let n := Byte.to_N x in
      String (hex_digit (n / 16)) (String (hex_digit (n mod 16)) (hexlify b'))
  end.

(** Helpers for the worked cases: an address in plain lower-case hex
    after ["0x"], the type name of a scalar, and a decoder that shows the
    bytes in hex. *)
Definition plain_helpers : Helpers := {|
  address_from_bytes := fun b _ => "0x" ++ hexlify b;
  get_type_name := fun f =>
    match data_type f with
    | UINT => "uint" | INT => "int" | BYTES => "bytes"
    | STRING => "string" | BOOL => "bool" | ADDRESS => "address"
    | ARRAY => "array" | STRUCT => "struct"
    end;
  decode_typed_data := fun b _ => "0x" ++ hexlify b
|}.

Definition scalar (dt : EthereumDataType) : EthereumFieldType :=
  FieldType dt None None None.

(* ================================================================= *)
(** ** The address warnings *)

(** The awaitable [confirm_address(title, address, description, br_type,
    br_code=...)] that the two address warnings return: the arguments of
    the call, [None] for one the call site leaves out. *)
Inductive address_call : Type :=
| confirm_address (title address : string)
                  (description br_type : option string)
                  (br_code : ButtonRequestType).

Definition address_text (c : address_call) : string :=
  match c with confirm_address _ address _ _ _ => address end.

(** [require_confirm_unknown_token(address_bytes)]; [hexlify] is
    [ubinascii.hexlify] followed by [decode()]. *)
Definition require_confirm_unknown_token (address_bytes : list byte)
    : address_call :=
  let contract_address_hex := "0x" ++ hexlify address_bytes in
  confirm_address "Unknown token" contract_address_hex
    (Some "Contract:") (Some "unknown_token") SignTx.

(** [require_confirm_address(address_bytes)]. *)
Definition require_confirm_address (address_bytes : list byte)
    : address_call :=
  let address_hex := "0x" ++ hexlify address_bytes in
  confirm_address "Signing address" address_hex None None SignTx.

Definition is_lower_hex (c : ascii) : bool :=
  existsb (Ascii.eqb c) (list_ascii_of_string "0123456789abcdef").

Fixpoint all_lower_hex (s : string) : bool :=
  match s with
  | EmptyString => true
  | String c s' => is_lower_hex c && all_lower_hex s'
  end.

(** [s] ends with [t]. *)
Definition ends_with (s t : string) : Prop := exists p, s = p ++ t.

(** The title of every screen in [shown] satisfies [P]. *)
Definition titles (P : string -> Prop) (shown : list ui_call) : Prop :=
  Forall (fun c => exists t, call_title c = Some t /\ P t) shown.

(* ================================================================= *)
(** * Properties *)

(** ** Strings *)

Section StringFacts.

Local Open Scope nat_scope.

Lemma append_empty_r (s : string) : s ++ "" = s.
Proof. induction s as [|c s IH]; simpl; congruence. Qed.

Lemma length_append (a b : string) :
  String.length (a ++ b) = String.length a + String.length b.
Proof. induction a as [|x a IH]; simpl; congruence. Qed.

Lemma substring_all (s : string) : substring 0 (String.length s) s = s.
Proof. induction s as [|c s IH]; simpl; congruence. Qed.

(** Skipping a prefix and taking all that follows gives the rest. *)
Lemma substring_after (p t : string) :
  substring (String.length p) (String.length t) (p ++ t) = t.
Proof.
  induction p as [|c p IH]; simpl.
  - apply substring_all.
  - exact IH.
Qed.

(** Every string splits at every position within it. *)
Lemma split_at (n : nat) : forall s : string,
  n <= String.length s ->
  exists p t, s = p ++ t /\ String.length p = n.
Proof.
  induction n as [|n IH]; intros s Hn.
  - exists "", s. split; reflexivity.
  - destruct s as [|c s]; simpl in Hn; [lia|].
    destruct (IH s) as (p & t & -> & Hp); [lia|].
    exists (String c p), t. split; simpl; congruence.
Qed.

(** The last [n] characters of a string are unique. *)
Lemma last_chars_unique (n : nat) (s t u : string) :
  last_chars n s t -> last_chars n s u -> t = u.
Proof.
  intros [Ht [p Hp]] [Hu [q Hq]].
  assert (Hlen : String.length p = String.length q).
  { apply (f_equal String.length) in Hp, Hq.
    rewrite length_append in Hp, Hq. lia. }
  rewrite Hp in Hq. clear Hp Ht Hu.
  revert q Hq Hlen.
  induction p as [|c p IH]; intros [|d q] Hq Hlen;
    simpl in *; try discriminate; [assumption|].
  injection Hq as _ Hq. injection Hlen as Hlen. eauto.
Qed.

End StringFacts.

(** ** [limit_str] *)

Lemma slice_last (n : nat) (p t : string) :
  String.length t = n -> (0 < n)%nat ->
  Py.slice_from (- Z.of_nat n) (p ++ t) = t.
Proof.
  intros Ht Hn. unfold Py.slice_from, Py.len.
  rewrite length_append, Ht.
  destruct (Z.ltb_spec (- Z.of_nat n) 0) as [_|]; [|lia].
  replace (Z.max _ 0) with (Z.of_nat (String.length p)) by lia.
  rewrite Nat2Z.id.
  replace (Z.to_nat _) with (String.length t) by lia.
  apply substring_after.
Qed.

Lemma limit_str_short (s : string) (limit : Z) :
  Py.len s <= limit + 2 -> limit_str s limit = s.
Proof.
  intros H. unfold limit_str.
  destruct (Z.leb_spec (Py.len s) (limit + 2)); [reflexivity|lia].
Qed.

Lemma limit_str_long (p t : string) :
  String.length t = 16%nat -> (2 < String.length p)%nat ->
  limit_str (p ++ t) 16 = ".." ++ t.
Proof.
  intros Ht Hp. unfold limit_str, Py.len.
  rewrite length_append, Ht.
  destruct (Z.leb_spec (Z.of_nat (String.length p + 16)) (16 + 2)); [lia|].
  f_equal. apply (slice_last 16); [assumption|lia].
Qed.

(** At the default budget a string either is short and kept, or splits
    into a head of more than two characters and a tail of sixteen, and is
    cut down to [".."] and that tail. *)
Lemma limit_str_16_cases (s : string) :
  (Py.len s <= 18 /\ limit_str s 16 = s) \/
  (18 < Py.len s /\
   exists p t, s = p ++ t /\ String.length t = 16%nat /\
               limit_str s 16 = ".." ++ t).
Proof.
  destruct (Z.le_gt_cases (Py.len s) 18) as [Hle|Hgt].
  - left. split; [assumption|]. apply limit_str_short. lia.
  - right. split; [assumption|]. unfold Py.len in Hgt.
    destruct (split_at (String.length s - 16) s) as (p & t & Hs & Hp); [lia|].
    assert (Ht : String.length t = 16%nat).
    { apply (f_equal String.length) in Hs. rewrite length_append in Hs. lia. }
    exists p, t. repeat split; try assumption.
    rewrite Hs. apply limit_str_long; [assumption|lia].
Qed.

(** C4: [limit_str(s, 16)] returns [s] unchanged when [len(s) <= 18];
    otherwise it returns [".."] followed by the last 16 characters of
    [s], so that the output has length 18 and its last 16 characters are
    the last 16 characters of the input. *)
Theorem limit_str_16_spec (s : string) :
  (Py.len s <= 18 -> limit_str s 16 = s) /\
  (18 < Py.len s ->
   exists t, last_chars 16 s t /\
             limit_str s 16 = ".." ++ t /\
             Py.len (limit_str s 16) = 18 /\
             last_chars 16 (limit_str s 16) t).
Proof.
  split.
  - intros H. apply limit_str_short. lia.
  - intros H.
    destruct (limit_str_16_cases s) as [[Hle _]|[_ (p & t & Hs & Ht & Hl)]];
      [lia|].
    exists t. rewrite Hl. repeat split.
    + assumption.
    + exists p. assumption.
    + unfold Py.len. simpl. rewrite Ht. reflexivity.
    + assumption.
    + exists "..". reflexivity.
Qed.

Lemma limit_str_16_spec_witness :
  limit_str "amount" 16 = "amount" /\
  exists t, last_chars 16 "Mail.wallets.amount" t /\
            limit_str "Mail.wallets.amount" 16 = ".." ++ t /\
            Py.len (limit_str "Mail.wallets.amount" 16) = 18 /\
            last_chars 16 (limit_str "Mail.wallets.amount" 16) t.
Proof.
  split.
  - apply (proj1 (limit_str_16_spec "amount")). vm_compute. discriminate.
  - apply (proj2 (limit_str_16_spec "Mail.wallets.amount")).
    vm_compute. reflexivity.
Defined.

(** C5: at the default budget of 16 the truncation is idempotent:
    [limit_str(limit_str(s, 16), 16) = limit_str(s, 16)]. *)
Theorem limit_str_16_idempotent (s : string) :
  limit_str (limit_str s 16) 16 = limit_str s 16.
Proof.
  destruct (limit_str_16_cases s) as [[_ Hl]|[_ (p & t & _ & Ht & Hl)]];
    rewrite Hl.
  - assumption.
  - apply limit_str_short. unfold Py.len. simpl. rewrite Ht. lia.
Qed.

(** ** Decimal digits and [rstrip] *)

Lemma string_of_uint_digits (d : Decimal.uint) :
  all_digits (NilEmpty.string_of_uint d) = true.
Proof. induction d; simpl; auto. Qed.

(** The rendering of a non-negative [int] is its first digit and more
    digits. *)
Lemma str_nonneg (n : Z) :
  0 <= n ->
  exists c rest, Py.str n = String c rest /\
                 is_digit c = true /\ all_digits rest = true.
Proof.
  intros Hn. unfold Py.str.
  destruct n as [|p|p]; [| |lia]; simpl.
  - exists "0"%char, "". repeat split.
  - pose proof (string_of_uint_digits (Pos.to_uint p)) as Hd.
    pose proof (Unsigned.to_uint_nonnil p) as Hnil.
    destruct (Pos.to_uint p); try congruence; simpl in *;
      eexists _, _; (split; [reflexivity|]); split; auto.
Qed.

Lemma str_nonneg_digits (n : Z) : 0 <= n -> all_digits (Py.str n) = true.
Proof.
  intros Hn. destruct (str_nonneg n Hn) as (c & rest & -> & Hc & Hr).
  simpl. rewrite Hc, Hr. reflexivity.
Qed.

Lemma digit_not (c x : ascii) :
  is_digit c = true -> is_digit x = false -> Ascii.eqb c x = false.
Proof.
  intros Hc Hx. destruct (Ascii.eqb_spec c x) as [->|]; congruence.
Qed.

Lemma rstrip_keep (c a : ascii) (s : string) :
  Ascii.eqb a c = false ->
  Py.rstrip c (String a s) = String a (Py.rstrip c s).
Proof. intros H. simpl. rewrite H, andb_false_r. reflexivity. Qed.

(** Nothing is stripped to the left of a character that stays. *)
Lemma rstrip_app_keep (c a : ascii) (s1 s2 : string) :
  Ascii.eqb a c = false ->
  Py.rstrip c (s1 ++ String a s2) = s1 ++ String a (Py.rstrip c s2).
Proof.
  intros H. induction s1 as [|x s1 IH].
  - apply rstrip_keep, H.
  - change (Py.rstrip c (String x (s1 ++ String a s2)) =
            String x (s1 ++ String a (Py.rstrip c s2))).
    simpl. rewrite IH. destruct s1; reflexivity.
Qed.

(** A string of digits followed by one point loses the point alone. *)
Lemma rstrip_point (s : string) :
  all_digits s = true -> Py.rstrip "." (s ++ ".") = s.
Proof.
  induction s as [|x s IH]; intros Hs; simpl in *; [reflexivity|].
  apply andb_prop in Hs. destruct Hs as [Hx Hs].
  rewrite (IH Hs), (digit_not x "."), andb_false_r by (assumption || reflexivity).
  reflexivity.
Qed.

(** ** [format_amount] *)

(** With no decimals an amount is rendered as the integer it is. *)
Lemma format_amount_integer (v : Z) : format_amount v 0 = Py.str v.
Proof.
  assert (Hpos : forall n, 0 <= n ->
            Py.rstrip "." (Py.rstrip "0" (Py.str n ++ String "." "0"))
            = Py.str n).
  { intros n Hn. rewrite rstrip_app_keep by reflexivity.
    apply rstrip_point, str_nonneg_digits, Hn. }
  unfold format_amount.
  change (10 ^ 0) with 1. rewrite Z.div_1_r, Z.mod_1_r.
  change (Py.zfill 0 (Py.str 0)) with "0".
  destruct v as [|p|p].
  - reflexivity.
  - apply Hpos. lia.
  - change (Z.neg p <? 0) with true. change (Z.abs (Z.neg p)) with (Z.pos p).
    cbv iota.
    change ("-" ++ Py.str (Z.pos p) ++ "." ++ "0")
      with (String "-" (Py.str (Z.pos p) ++ String "." "0")).
    rewrite rstrip_keep by reflexivity.
    rewrite rstrip_keep by reflexivity.
    rewrite Hpos by lia. reflexivity.
Qed.

(** A non-negative amount is rendered with a digit in front. *)
Lemma format_amount_nonneg_head (v d : Z) :
  0 <= v ->
  exists c rest, format_amount v d = String c rest /\ is_digit c = true.
Proof.
  intros Hv. unfold format_amount.
  destruct (Z.ltb_spec v 0) as [|_]; [lia|].
  rewrite Z.abs_eq by assumption.
  destruct (str_nonneg (v / 10 ^ d)) as (c & rest & -> & Hc & _).
  { destruct (Z.le_gt_cases 0 d) as [Hd|Hd].
    - apply Z.div_pos; [assumption|]. apply Z.pow_pos_nonneg; lia.
    - rewrite Z.pow_neg_r by lia. rewrite Z.div_0_r. lia. }
  set (frac := Py.zfill d _).
  change ("" ++ String c rest ++ "." ++ frac)
    with (String c rest ++ String "." frac).
  rewrite rstrip_app_keep by reflexivity.
  simpl append.
  rewrite rstrip_keep by (apply digit_not; [assumption|reflexivity]).
  eauto.
Qed.

(** A negative amount is rendered with its sign in front. *)
Lemma format_amount_negative_head (v d : Z) :
  v < 0 -> exists rest, format_amount v d = String "-" rest.
Proof.
  intros Hv. unfold format_amount.
  destruct (Z.ltb_spec v 0) as [_|]; [|lia].
  set (body := Py.str _ ++ _).
  change ("-" ++ body) with (String "-" body).
  rewrite rstrip_keep by reflexivity.
  rewrite rstrip_keep by reflexivity.
  eauto.
Qed.

(** ** [format_ethereum_amount] *)

(** The two ways out of the formatter. *)
Lemma format_ethereum_amount_dust
    (value : Z) (token : option EthereumTokenInfo)
    (network : EthereumNetworkInfo) :
  currency_decimals token > 9 ->
  value < 10 ^ (currency_decimals token - 9) ->
  format_ethereum_amount value token network
  = format_amount value 0 ++ " Wei " ++ currency_symbol token network.
Proof.
  intros Hd Hv. unfold format_ethereum_amount.
  destruct token as [t|]; cbn [currency_decimals currency_symbol] in *.
  - destruct (Z.gtb_spec (decimals t) 9); [|lia].
    destruct (Z.ltb_spec value (10 ^ (decimals t - 9))); [|lia].
    reflexivity.
  - destruct (Z.gtb_spec 18 9); [|lia].
    destruct (Z.ltb_spec value (10 ^ (18 - 9))); [|lia].
    reflexivity.
Qed.

Lemma format_ethereum_amount_plain
    (value : Z) (token : option EthereumTokenInfo)
    (network : EthereumNetworkInfo) :
  currency_decimals token <= 9 \/
    10 ^ (currency_decimals token - 9) <= value ->
  format_ethereum_amount value token network
  = format_amount value (currency_decimals token)
    ++ " " ++ currency_symbol token network.
Proof.
  intros H. unfold format_ethereum_amount.
  destruct token as [t|]; cbn [currency_decimals currency_symbol] in *.
  - destruct (Z.gtb_spec (decimals t) 9);
      destruct (Z.ltb_spec value (10 ^ (decimals t - 9)));
      try reflexivity; lia.
  - destruct (Z.gtb_spec 18 9);
      destruct (Z.ltb_spec value (10 ^ (18 - 9)));
      try reflexivity; lia.
Qed.

(** A text with a digit in front does not start with ["Wei "]. *)
Lemma digit_head_not_wei (c : ascii) (rest tail : string) :
  is_digit c = true -> prefix "Wei " (String c rest ++ tail) = false.
Proof.
  intros Hc.
  change (prefix "Wei " (String c rest ++ tail))
    with (if ascii_dec "W" c then prefix "ei " (rest ++ tail) else false).
  destruct (ascii_dec "W" c) as [<-|]; [discriminate|reflexivity].
Qed.

(** C1, as the code has it: with [decimals > 9] and
    [0 <= value < 10^(decimals-9)] the output is [value] rendered with no
    decimals, followed by [" Wei "] and the symbol, so that ["Wei "] comes
    after the number and the output does not start with it; with
    [value >= 10^(decimals-9)] the output is the fixed-point rendering
    followed by a space and the symbol, and never starts with ["Wei "]. *)
Theorem format_ethereum_amount_wei
    (value : Z) (token : option EthereumTokenInfo)
    (network : EthereumNetworkInfo) :
  currency_decimals token > 9 ->
  (0 <= value < 10 ^ (currency_decimals token - 9) ->
   format_ethereum_amount value token network
   = format_amount value 0 ++ " Wei " ++ currency_symbol token network /\
   prefix "Wei " (format_ethereum_amount value token network) = false) /\
  (10 ^ (currency_decimals token - 9) <= value ->
   format_ethereum_amount value token network
   = format_amount value (currency_decimals token)
     ++ " " ++ currency_symbol token network /\
   prefix "Wei " (format_ethereum_amount value token network) = false).
Proof.
  intros Hd. split.
  - intros [Hv0 Hv].
    rewrite format_ethereum_amount_dust by assumption.
    split; [reflexivity|].
    destruct (format_amount_nonneg_head value 0 Hv0)
      as (c & rest & -> & Hc).
    apply digit_head_not_wei, Hc.
  - intros Hv.
    rewrite format_ethereum_amount_plain by (right; assumption).
    split; [reflexivity|].
    assert (Hpos : 0 < 10 ^ (currency_decimals token - 9))
      by (apply Z.pow_pos_nonneg; lia).
    destruct (format_amount_nonneg_head value (currency_decimals token))
      as (c & rest & -> & Hc); [lia|].
    apply digit_head_not_wei, Hc.
Qed.

Lemma format_ethereum_amount_wei_witness :
  (format_ethereum_amount 5 (Some ETH) mainnet = "5 Wei ETH" /\
   prefix "Wei " (format_ethereum_amount 5 (Some ETH) mainnet) = false) /\
  (format_ethereum_amount 1000000000 None mainnet = "0.000000001 ETH" /\
   prefix "Wei " (format_ethereum_amount 1000000000 None mainnet) = false).
Proof.
  split.
  - apply (proj1 (format_ethereum_amount_wei 5 (Some ETH) mainnet
                    ltac:(simpl; lia))).
    simpl. lia.
  - apply (proj2 (format_ethereum_amount_wei 1000000000 None mainnet
                    ltac:(simpl; lia))).
    simpl. lia.
Defined.

(** C1 fails as stated: 5 is below the threshold of a currency with 18
    decimals, and the output, ["5 Wei ETH"], does not start with
    ["Wei "]. *)
Lemma wei_is_not_in_front :
  currency_decimals (Some ETH) > 9 /\
  0 <= 5 < 10 ^ (currency_decimals (Some ETH) - 9) /\
  format_ethereum_amount 5 (Some ETH) mainnet = "5 Wei ETH" /\
  prefix "Wei " (format_ethereum_amount 5 (Some ETH) mainnet) = false.
Proof. repeat split; simpl; try lia; discriminate. Qed.

(** C3, as the code has it: 5 in the currency [{ETH, 18}] is formatted as
    ["5 Wei ETH"], and 2_000_000_000_000_000_000 as ["2 ETH"], whether
    the currency is a token or the native one. *)
Theorem format_ethereum_amount_examples (network : EthereumNetworkInfo) :
  format_ethereum_amount 5 (Some ETH) network = "5 Wei ETH" /\
  format_ethereum_amount 2000000000000000000 (Some ETH) network = "2 ETH" /\
  format_ethereum_amount 5 None mainnet = "5 Wei ETH" /\
  format_ethereum_amount 2000000000000000000 None mainnet = "2 ETH".
Proof. repeat split; vm_compute; reflexivity. Qed.

(** C3 fails as stated: 5 is not formatted as ["0 Wei ETH"]. *)
Lemma five_wei_is_not_zero :
  format_ethereum_amount 5 (Some ETH) mainnet <> "0 Wei ETH".
Proof. vm_compute. discriminate. Qed.

(** C8, as the code has it: nothing rejects a negative value.  It is
    formatted like any other and comes out with its sign in front:
    rendered with no decimals and followed by [" Wei "] and the symbol
    when [decimals > 9], and in fixed point followed by the symbol
    otherwise. *)
Theorem format_ethereum_amount_negative
    (value : Z) (token : option EthereumTokenInfo)
    (network : EthereumNetworkInfo) :
  value < 0 ->
  (exists rest,
     format_ethereum_amount value token network = String "-" rest) /\
  (currency_decimals token > 9 ->
   format_ethereum_amount value token network
   = format_amount value 0 ++ " Wei " ++ currency_symbol token network) /\
  (currency_decimals token <= 9 ->
   format_ethereum_amount value token network
   = format_amount value (currency_decimals token)
     ++ " " ++ currency_symbol token network).
Proof.
  intros Hv.
  assert (Hdust : currency_decimals token > 9 ->
            format_ethereum_amount value token network
            = format_amount value 0
              ++ " Wei " ++ currency_symbol token network).
  { intros Hd. apply format_ethereum_amount_dust; [assumption|].
    assert (0 < 10 ^ (currency_decimals token - 9))
      by (apply Z.pow_pos_nonneg; lia).
    lia. }
  assert (Hplain : currency_decimals token <= 9 ->
            format_ethereum_amount value token network
            = format_amount value (currency_decimals token)
              ++ " " ++ currency_symbol token network).
  { intros Hd. apply format_ethereum_amount_plain. left. assumption. }
  split; [|split; assumption].
  destruct (Z.le_gt_cases (currency_decimals token) 9) as [Hd|Hd].
  - rewrite Hplain by assumption.
    destruct (format_amount_negative_head value (currency_decimals token) Hv)
      as [rest ->].
    simpl. eauto.
  - rewrite Hdust by lia.
    destruct (format_amount_negative_head value 0 Hv) as [rest ->].
    simpl. eauto.
Qed.

Lemma format_ethereum_amount_negative_witness :
  (exists rest,
     format_ethereum_amount (-1) None mainnet = String "-" rest) /\
  format_ethereum_amount (-1) None mainnet = "-1 Wei ETH".
Proof.
  destruct (format_ethereum_amount_negative (-1) None mainnet
              ltac:(lia)) as (Hsign & Hdust & _).
  split.
  - exact Hsign.
  - apply Hdust. simpl. lia.
Defined.

(** C8 fails as stated: the value -1 is not rejected.  The formatter
    returns ["-1 Wei ETH"] where the one that rejects negative values
    returns nothing. *)
Lemma negative_is_formatted :
  -1 < 0 /\
  format_ethereum_amount (-1) None mainnet = "-1 Wei ETH" /\
  format_rejecting_negative (-1) None mainnet = None.
Proof. repeat split. Qed.

(** ** Flows *)

(** A flow of one confirmation shows that screen, whatever the answer. *)
Lemma shown_confirm (c : ui_call) (answers : list (option bool)) :
  shown (confirm c) answers = [c].
Proof. destruct answers as [|[b|] rest]; reflexivity. Qed.

Lemma shown_ask (c : ui_call) (answers : list (option bool)) :
  shown (ask c) answers = [c].
Proof. destruct answers as [|[b|] rest]; reflexivity. Qed.

(** A question returns the operator's answer. *)
Lemma result_ask (c : ui_call) (b : bool) (rest : list (option bool)) :
  result (ask c) (Some b :: rest) = Some b.
Proof. reflexivity. Qed.

(** What a flow shows is a prefix of what it shows when every request is
    answered. *)
Lemma shown_two (c1 c2 : ui_call) (answers : list (option bool)) :
  exists n, shown (confirm c1 ;; confirm c2) answers = firstn n [c1; c2].
Proof.
  destruct answers as [|[b1|] rest];
    [exists 1%nat; reflexivity| |exists 1%nat; reflexivity].
  exists 2%nat. destruct rest as [|[b2|] rest]; reflexivity.
Qed.

Lemma shown_three (c1 c2 c3 : ui_call) (answers : list (option bool)) :
  exists n,
    shown (confirm c1 ;; confirm c2 ;; confirm c3) answers
    = firstn n [c1; c2; c3].
Proof.
  destruct answers as [|[b1|] rest];
    [exists 1%nat; reflexivity| |exists 1%nat; reflexivity].
  destruct rest as [|[b2|] rest];
    [exists 2%nat; reflexivity| |exists 2%nat; reflexivity].
  exists 3%nat. destruct rest as [|[b3|] rest]; reflexivity.
Qed.

Lemma format_fields_contains (count plural : string) :
  format_fields count plural "Contains {count} {plural}" 0
  = "Contains " ++ count ++ " " ++ plural.
Proof.
  cbn [format_fields prefix ascii_dec ascii_rec ascii_rect bool_dec bool_rec
       bool_rect sumbool_rec sumbool_rect eq_rec_r eq_rec eq_rect].
  rewrite append_empty_r. reflexivity.
Qed.

Section FlowProperties.

Context {helpers : Helpers}.

(** C2: a leaf whose declared data type is ADDRESS or BYTES is confirmed
    by the blob primitive with pagination asked for; a leaf of any other
    data type is confirmed by the plain text primitive, which has no
    pagination. *)
Theorem confirm_typed_value_primitive
    (name : string) (value : list byte) (parent_objects : list string)
    (field : EthereumFieldType) (array_index : option Z)
    (answers : list (option bool)) :
  (data_type field = ADDRESS \/ data_type field = BYTES ->
   exists title description,
     shown (confirm_typed_value name value parent_objects field
              array_index) answers
     = [confirm_blob "confirm_typed_value" title
          (Text (decode_typed_data value (get_type_name field)))
          description None true]) /\
  (data_type field <> ADDRESS -> data_type field <> BYTES ->
   exists title description,
     shown (confirm_typed_value name value parent_objects field
              array_index) answers
     = [confirm_text "confirm_typed_value" title
          (decode_typed_data value (get_type_name field)) description]).
Proof.
  unfold confirm_typed_value.
  destruct array_index as [i|];
    (split; [intros [H|H]; rewrite H | intros Ha Hb];
     [| |destruct (data_type field); try congruence];
     rewrite shown_confirm; eauto).
Qed.

(** C6: inside an array the title of a leaf is the truncated dot-joined
    path with the name of the array field at its end, and the
    description is ["[index] (type-name)"]; outside an array the title
    is the truncated dot-joined path of the parent objects alone, and
    the description is ["field-name (type-name)"]. *)
Theorem confirm_typed_value_title
    (name : string) (value : list byte) (parent_objects : list string)
    (field : EthereumFieldType) (array_index : option Z)
    (answers : list (option bool)) :
  exists c,
    shown (confirm_typed_value name value parent_objects field
             array_index) answers = [c] /\
    (forall i, array_index = Some i ->
       call_title c
       = Some (limit_str (Py.join "." (parent_objects ++ [name])) 16) /\
       call_description c
       = Some ("[" ++ Py.str i ++ "] (" ++ get_type_name field ++ ")")) /\
    (array_index = None ->
       call_title c = Some (limit_str (Py.join "." parent_objects) 16) /\
       call_description c
       = Some (name ++ " (" ++ get_type_name field ++ ")")).
Proof.
  unfold confirm_typed_value.
  destruct array_index as [i|]; destruct (data_type field);
    rewrite shown_confirm; eexists; (split; [reflexivity|]);
    split; try discriminate;
    intros; repeat match goal with
                   | H : Some _ = Some _ |- _ => injection H as <-
                   end; split; reflexivity.
Qed.

(** C7: for a struct of [n] members the prompt shows the line
    ["Contains n key"], with ["keys"] for ["key"] unless [n] is 1, then
    the names of the members joined by [", "], and asks whether to show
    more; the flow returns the operator's answer. *)
Theorem should_show_struct_summary
    (description : string) (data_members : list EthereumStructMember)
    (title button_text : string) (answers : list (option bool)) :
  let n := Z.of_nat (List.length data_members) in
  shown (should_show_struct description data_members title button_text)
    answers
  = [should_show_more title
       [ (DEMIBOLD, description);
         (NORMAL, "Contains " ++ Py.str n ++ " "
                  ++ (if n =? 1 then "key" else "keys"));
         (NORMAL, Py.join ", " (map name data_members)) ]
       button_text "should_show_struct"] /\
  List.length (map name data_members) = List.length data_members /\
  forall b rest,
    result (should_show_struct description data_members title button_text)
      (Some b :: rest) = Some b.
Proof.
  intros n. unfold should_show_struct. rewrite shown_ask.
  unfold format_plural. rewrite format_fields_contains. fold n.
  split; [|split].
  - reflexivity.
  - apply length_map.
  - intros b rest. apply result_ask.
Qed.

(** C9: with an empty [to_bytes] the recipient shown is the literal
    ["new contract?"], and with any other it is the address rendered
    from [to_bytes]; as long as no address is rendered as that literal,
    the literal is shown exactly when [to_bytes] is empty. *)
Theorem require_confirm_tx_recipient
    (to_bytes : list byte) (value : Z) (network : EthereumNetworkInfo)
    (token : option EthereumTokenInfo) (answers : list (option bool)) :
  exists to_str,
    shown (require_confirm_tx to_bytes value network token) answers
    = [confirm_output to_str
         (format_ethereum_amount value token network) SignTx] /\
    (to_bytes = [] -> to_str = "new contract?") /\
    (to_bytes <> [] -> to_str = address_from_bytes to_bytes network) /\
    ((forall b, address_from_bytes b network <> "new contract?") ->
     (to_str = "new contract?" <-> to_bytes = [])).
Proof.
  unfold require_confirm_tx. rewrite shown_confirm.
  eexists. split; [reflexivity|].
  destruct to_bytes as [|x to_bytes]; simpl.
  - repeat split; congruence.
  - split; [discriminate|]. split; [reflexivity|].
    intros Hno. split; [|discriminate].
    intros H. apply Hno in H. contradiction.
Qed.

End FlowProperties.

(** C10: in the legacy and in the EIP-1559 fee confirmation the gas
    price, the priority fee per gas, the maximum fee per gas and the
    maximum fee [gas * limit] are formatted with no token, that is in the
    native currency of the network; the spending alone is formatted with
    the token supplied.  What an operator sees is these screens, or the
    first of them if a request is declined. *)
Theorem fees_in_native_currency
    (spending gas_price max_priority_fee max_gas_fee gas_limit : Z)
    (network : EthereumNetworkInfo) (token : option EthereumTokenInfo) :
  let legacy :=
    [ confirm_amount "Confirm fee"
        (format_ethereum_amount gas_price None network) "Gas price:";
      confirm_total
        (format_ethereum_amount spending token network)
        (format_ethereum_amount (gas_price * gas_limit) None network)
        "Amount sent:" "Maximum fee:" ] in
  let eip1559 :=
    [ confirm_amount "Confirm fee"
        (format_ethereum_amount max_gas_fee None network)
        "Maximum fee per gas";
      confirm_amount "Confirm fee"
        (format_ethereum_amount max_priority_fee None network)
        "Priority fee per gas";
      confirm_total
        (format_ethereum_amount spending token network)
        (format_ethereum_amount (max_gas_fee * gas_limit) None network)
        "Amount sent:" "Maximum fee:" ] in
  (forall b1 b2 rest,
     shown (require_confirm_fee spending gas_price gas_limit network token)
       (Some b1 :: Some b2 :: rest) = legacy) /\
  (forall answers, exists n,
     shown (require_confirm_fee spending gas_price gas_limit network token)
       answers = firstn n legacy) /\
  (forall b1 b2 b3 rest,
     shown (require_confirm_eip1559_fee spending max_priority_fee
              max_gas_fee gas_limit network token)
       (Some b1 :: Some b2 :: Some b3 :: rest) = eip1559) /\
  (forall answers, exists n,
     shown (require_confirm_eip1559_fee spending max_priority_fee
              max_gas_fee gas_limit network token)
       answers = firstn n eip1559) /\
  flat_map fee_texts legacy
  = [ format_ethereum_amount gas_price None network;
      format_ethereum_amount (gas_price * gas_limit) None network ] /\
  flat_map fee_texts eip1559
  = [ format_ethereum_amount max_gas_fee None network;
      format_ethereum_amount max_priority_fee None network;
      format_ethereum_amount (max_gas_fee * gas_limit) None network ] /\
  flat_map spending_texts legacy
  = [ format_ethereum_amount spending token network ] /\
  flat_map spending_texts eip1559
  = [ format_ethereum_amount spending token network ].
Proof.
  intros legacy eip1559. repeat apply conj; try reflexivity.
  - intros answers. apply shown_two.
  - intros answers. apply shown_three.
Qed.

(** ** The worked cases *)

#[local] Existing Instance plain_helpers.

Lemma confirm_typed_value_primitive_witness :
  (exists title description,
     shown (confirm_typed_value "owner" [x2a] ["Mail"]
              (scalar ADDRESS) None) []
     = [confirm_blob "confirm_typed_value" title
          (Text (decode_typed_data [x2a] (get_type_name (scalar ADDRESS))))
          description None true]) /\
  (exists title description,
     shown (confirm_typed_value "nonce" [x2a] ["Mail"]
              (scalar UINT) None) []
     = [confirm_text "confirm_typed_value" title
          (decode_typed_data [x2a] (get_type_name (scalar UINT)))
          description]).
Proof.
  split.
  - apply (proj1 (confirm_typed_value_primitive "owner" [x2a] ["Mail"]
                    (scalar ADDRESS) None [])).
    left. reflexivity.
  - apply (proj2 (confirm_typed_value_primitive "nonce" [x2a] ["Mail"]
                    (scalar UINT) None [])); simpl; discriminate.
Defined.

Lemma confirm_typed_value_title_witness :
  (exists c,
     shown (confirm_typed_value "amounts" [x2a] ["Mail"; "wallets"]
              (scalar UINT) (Some 3)) [] = [c] /\
     call_title c = Some "...wallets.amounts" /\
     call_description c = Some "[3] (uint)") /\
  (exists c,
     shown (confirm_typed_value "nonce" [x2a] ["Mail"]
              (scalar UINT) None) [] = [c] /\
     call_title c = Some "Mail" /\
     call_description c = Some "nonce (uint)").
Proof.
  split.
  - destruct (confirm_typed_value_title "amounts" [x2a] ["Mail"; "wallets"]
                (scalar UINT) (Some 3) []) as (c & Hc & Harray & _).
    exists c. split; [exact Hc|]. apply (Harray 3). reflexivity.
  - destruct (confirm_typed_value_title "nonce" [x2a] ["Mail"]
                (scalar UINT) None []) as (c & Hc & _ & Hplain).
    exists c. split; [exact Hc|]. apply Hplain. reflexivity.
Defined.

Lemma require_confirm_tx_recipient_witness :
  (exists to_str,
     shown (require_confirm_tx [] 5 mainnet None) []
     = [confirm_output to_str "5 Wei ETH" SignTx] /\
     to_str = "new contract?") /\
  (exists to_str,
     shown (require_confirm_tx [x2a] 5 mainnet None) []
     = [confirm_output to_str "5 Wei ETH" SignTx] /\
     to_str = "0x2a" /\
     (to_str = "new contract?" <-> [x2a] = @nil byte)).
Proof.
  split.
  - destruct (require_confirm_tx_recipient [] 5 mainnet None [])
      as (to_str & Hshown & Hempty & _).
    exists to_str. split; [exact Hshown|]. apply Hempty. reflexivity.
  - destruct (require_confirm_tx_recipient [x2a] 5 mainnet None [])
      as (to_str & Hshown & _ & Hfull & Hiff).
    exists to_str. split; [exact Hshown|]. split.
    + apply Hfull. discriminate.
    + apply Hiff. intros b. simpl. discriminate.
Defined.

(* ================================================================= *)
(** * Further properties of the module *)

(** ** [limit_str] at any budget *)

(** At a budget of at least 1 a string either is short enough and kept,
    or splits into a head and a tail of [limit] characters and is cut
    down to [".."] and that tail. *)
Lemma limit_str_cases (s : string) (limit : Z) :
  1 <= limit ->
  (Py.len s <= limit + 2 /\ limit_str s limit = s) \/
  (limit + 2 < Py.len s /\
   exists p t, s = p ++ t /\ String.length t = Z.to_nat limit /\
               limit_str s limit = ".." ++ t).
Proof.
  intros Hl.
  destruct (Z.le_gt_cases (Py.len s) (limit + 2)) as [Hle|Hgt].
  - left. split; [assumption|]. apply limit_str_short, Hle.
  - right. split; [lia|]. unfold Py.len in Hgt.
    destruct (split_at (String.length s - Z.to_nat limit) s)
      as (p & t & Hs & Hp); [lia|].
    assert (Ht : String.length t = Z.to_nat limit).
    { apply (f_equal String.length) in Hs. rewrite length_append in Hs. lia. }
    exists p, t. repeat split; try assumption.
    unfold limit_str.
    destruct (Z.leb_spec (Py.len s) (limit + 2)) as [Hle|_];
      [unfold Py.len in Hle; lia|].
    f_equal. rewrite Hs.
    replace (- limit) with (- Z.of_nat (Z.to_nat limit)) by lia.
    apply slice_last; [assumption|lia].
Qed.

(** X1: for every budget [limit >= 1], [limit_str(s, limit)] returns [s]
    unchanged when [len(s) <= limit + 2], and otherwise [".."] followed by
    the last [limit] characters of [s]. *)
Theorem limit_str_tail (s : string) (limit : Z) :
  1 <= limit ->
  (Py.len s <= limit + 2 -> limit_str s limit = s) /\
  (limit + 2 < Py.len s ->
   exists t, last_chars (Z.to_nat limit) s t /\
             limit_str s limit = ".." ++ t).
Proof.
  intros Hl. split.
  - apply limit_str_short.
  - intros Hlong.
    destruct (limit_str_cases s limit Hl)
      as [[Hle _]|[_ (p & t & Hs & Ht & Hcut)]]; [lia|].
    exists t. split; [|assumption].
    split; [assumption|]. exists p. assumption.
Qed.

Lemma limit_str_tail_witness :
  limit_str "abc" 1 = "abc" /\
  exists t, last_chars (Z.to_nat 3) "Mail.to.wallets" t /\
            limit_str "Mail.to.wallets" 3 = ".." ++ t.
Proof.
  split.
  - apply (proj1 (limit_str_tail "abc" 1 ltac:(lia))). vm_compute.
    discriminate.
  - apply (proj2 (limit_str_tail "Mail.to.wallets" 3 ltac:(lia))).
    vm_compute. reflexivity.
Defined.

(** X2: for every budget [limit >= 1] the output of [limit_str] has
    [min(len(s), limit + 2)] characters: it is never longer than the
    input and never longer than [limit + 2]. *)
Theorem limit_str_length (s : string) (limit : Z) :
  1 <= limit ->
  Py.len (limit_str s limit) = Z.min (Py.len s) (limit + 2).
Proof.
  intros Hl.
  destruct (limit_str_cases s limit Hl)
    as [[Hle ->]|[Hgt (p & t & _ & Ht & ->)]]; [lia|].
  unfold Py.len in *. simpl String.length. rewrite Ht. lia.
Qed.

Lemma limit_str_length_witness :
  Py.len (limit_str "Mail.to.wallets" 3) = Z.min (Py.len "Mail.to.wallets") 5.
Proof. apply (limit_str_length "Mail.to.wallets" 3). lia. Defined.

(** X3: for every budget [limit >= 1], [limit_str] is idempotent. *)
Theorem limit_str_idempotent (s : string) (limit : Z) :
  1 <= limit ->
  limit_str (limit_str s limit) limit = limit_str s limit.
Proof.
  intros Hl.
  destruct (limit_str_cases s limit Hl)
    as [[_ Hs]|[_ (p & t & _ & Ht & Hs)]]; rewrite Hs.
  - assumption.
  - apply limit_str_short. unfold Py.len. simpl String.length. lia.
Qed.

Lemma limit_str_idempotent_witness :
  limit_str (limit_str "Mail.to.wallets" 3) 3 = limit_str "Mail.to.wallets" 3.
Proof. apply (limit_str_idempotent "Mail.to.wallets" 3). lia. Defined.

(** X4: a budget of 0 cuts nothing.  [s[-0:]] is the whole of [s], so a
    string of more than two characters comes back whole with [".."] in
    front, two characters longer than it went in. *)
Theorem limit_str_zero (s : string) :
  2 < Py.len s ->
  limit_str s 0 = ".." ++ s /\
  Py.len (limit_str s 0) = Py.len s + 2.
Proof.
  intros Hs.
  assert (Hcut : limit_str s 0 = ".." ++ s).
  { unfold limit_str.
    destruct (Z.leb_spec (Py.len s) (0 + 2)); [lia|].
    f_equal. unfold Py.slice_from. simpl Z.opp. simpl Z.ltb. cbv iota.
    rewrite Z.min_l by (unfold Py.len; lia).
    rewrite Z.sub_0_r. unfold Py.len. rewrite Nat2Z.id.
    apply substring_all. }
  split; [assumption|]. rewrite Hcut. unfold Py.len. simpl String.length. lia.
Qed.

Lemma limit_str_zero_witness :
  limit_str "Mail" 0 = "..Mail" /\ Py.len (limit_str "Mail" 0) = 6.
Proof. apply (limit_str_zero "Mail"). vm_compute. reflexivity. Defined.

(** ** Titles of the typed-data screens *)

Lemma limit_str_16_fits (s : string) : Py.len (limit_str s 16) <= 18.
Proof.
  destruct (limit_str_16_cases s) as [[Hle ->]|[_ (p & t & _ & Ht & ->)]];
    [assumption|].
  unfold Py.len. simpl String.length. lia.
Qed.

Lemma append_assoc_r (a b c : string) : (a ++ b) ++ c = a ++ b ++ c.
Proof. induction a as [|x a IH]; simpl; congruence. Qed.

(** The dot-joined path ends with its last segment. *)
Lemma join_ends_with_last (sep : string) (parts : list string) (x : string) :
  ends_with (Py.join sep (parts ++ [x])) x.
Proof.
  unfold Py.join. induction parts as [|a parts IH].
  - exists "". reflexivity.
  - destruct IH as [p Hp].
    change ((a :: parts) ++ [x])%list with (a :: (parts ++ [x]))%list.
    destruct (parts ++ [x])%list as [|b rest] eqn:E.
    + destruct parts; discriminate.
    + change (concat sep (a :: b :: rest))
        with (a ++ sep ++ concat sep (b :: rest)).
      rewrite Hp. exists (a ++ sep ++ p).
      rewrite !append_assoc_r. reflexivity.
Qed.

(** Of two ways to split one string, the shorter tail ends the longer. *)
Lemma tail_of_tail (p t q u : string) :
  p ++ t = q ++ u -> (String.length u <= String.length t)%nat ->
  ends_with t u.
Proof.
  revert q. induction p as [|c p IH]; intros q Heq Hlen.
  - exists q. assumption.
  - destruct q as [|d q].
    + apply (f_equal String.length) in Heq.
      simpl in Heq. rewrite length_append in Heq. lia.
    + injection Heq as _ Heq. eauto.
Qed.

(** At a budget of at least 1, [limit_str] leaves in place an ending of
    at most [limit] characters. *)
Lemma limit_str_keeps_ending (s u : string) (limit : Z) :
  1 <= limit -> Py.len u <= limit -> ends_with s u ->
  ends_with (limit_str s limit) u.
Proof.
  intros Hl Hu [q Hq].
  destruct (limit_str_cases s limit Hl)
    as [[_ ->]|[_ (p & t & Hs & Ht & ->)]].
  - exists q. assumption.
  - destruct (tail_of_tail p t q u) as [r Hr].
    + congruence.
    + unfold Py.len in Hu. lia.
    + exists (".." ++ r). rewrite Hr. reflexivity.
Qed.

Section TitleProperties.

Context {helpers : Helpers}.

(** X5: the title of a leaf confirmation and the title of an array
    prompt have at most 18 characters, however long the path is. *)
Theorem typed_data_titles_fit
    (name : string) (value : list byte) (parent_objects : list string)
    (field : EthereumFieldType) (array_index : option Z)
    (type_name : string) (size : Z) (answers : list (option bool)) :
  titles (fun t => Py.len t <= 18)
    (shown (confirm_typed_value name value parent_objects field array_index)
       answers) /\
  titles (fun t => Py.len t <= 18)
    (shown (should_show_array parent_objects type_name size) answers).
Proof.
  split.
  - unfold confirm_typed_value.
    destruct array_index; destruct (data_type field);
      rewrite shown_confirm; repeat constructor;
      eexists; (split; [reflexivity|apply limit_str_16_fits]).
  - unfold should_show_array. rewrite shown_ask. repeat constructor.
    eexists. split; [reflexivity|apply limit_str_16_fits].
Qed.

(** X6: inside an array, a field name of at most 16 characters is never
    cut: the title of the leaf confirmation ends with it, whatever the
    parent objects are. *)
Theorem array_title_ends_with_name
    (name : string) (value : list byte) (parent_objects : list string)
    (field : EthereumFieldType) (i : Z) (answers : list (option bool)) :
  Py.len name <= 16 ->
  titles (fun t => ends_with t name)
    (shown (confirm_typed_value name value parent_objects field (Some i))
       answers).
Proof.
  intros Hname. unfold confirm_typed_value.
  destruct (data_type field); rewrite shown_confirm; repeat constructor;
    eexists; (split; [reflexivity|]);
    (apply limit_str_keeps_ending;
     [unfold default_limit; lia|assumption|apply join_ends_with_last]).
Qed.

End TitleProperties.

Lemma array_title_ends_with_name_witness :
  titles (fun t => ends_with t "amounts")
    (shown (confirm_typed_value "amounts" [x2a] ["Mail"; "wallets"]
              (scalar UINT) (Some 3)) []).
Proof.
  apply (array_title_ends_with_name "amounts" [x2a] ["Mail"; "wallets"]
           (scalar UINT) 3 []).
  vm_compute. discriminate.
Defined.

(** ** The address warnings *)

Lemma hex_digit_lower (n : N) : is_lower_hex (hex_digit n) = true.
Proof.
  unfold hex_digit.
  repeat match goal with
         | |- context [match ?x with _ => _ end] => destruct x
         end; reflexivity.
Qed.

Lemma hex_digit_inj (a b : N) :
  (a < 16)%N -> (b < 16)%N -> hex_digit a = hex_digit b -> a = b.
Proof.
  intros Ha Hb.
  assert (Hcases : forall n, (n < 16)%N ->
            n = 0%N \/ n = 1%N \/ n = 2%N \/ n = 3%N \/ n = 4%N \/
            n = 5%N \/ n = 6%N \/ n = 7%N \/ n = 8%N \/ n = 9%N \/
            n = 10%N \/ n = 11%N \/ n = 12%N \/ n = 13%N \/ n = 14%N \/
            n = 15%N) by (intros n Hn; lia).
  destruct (Hcases a Ha) as [->|[->|[->|[->|[->|[->|[->|[->|[->|[->|[->|
                            [->|[->|[->|[->| ->]]]]]]]]]]]]]]];
    destruct (Hcases b Hb) as [->|[->|[->|[->|[->|[->|[->|[->|[->|[->|[->|
                              [->|[->|[->|[->| ->]]]]]]]]]]]]]]];
    simpl; intros H; try reflexivity; discriminate H.
Qed.

(** A byte is its two hexadecimal digits. *)
Lemma byte_of_nibbles (x y : byte) :
  (Byte.to_N x / 16 = Byte.to_N y / 16)%N ->
  (Byte.to_N x mod 16 = Byte.to_N y mod 16)%N ->
  x = y.
Proof.
  intros Hhi Hlo.
  assert (H : Byte.to_N x = Byte.to_N y).
  { rewrite (N.div_mod (Byte.to_N x) 16), (N.div_mod (Byte.to_N y) 16)
      by discriminate.
    congruence. }
  pose proof (Byte.of_to_N x) as Hx. pose proof (Byte.of_to_N y) as Hy.
  congruence.
Qed.

Lemma hexlify_length (b : list byte) :
  String.length (hexlify b) = (2 * List.length b)%nat.
Proof. induction b as [|x b IH]; simpl; lia. Qed.

Lemma hexlify_lower_hex (b : list byte) : all_lower_hex (hexlify b) = true.
Proof.
  induction b as [|x b IH]; [reflexivity|].
  simpl. rewrite !hex_digit_lower, IH. reflexivity.
Qed.

Lemma hexlify_inj (b1 b2 : list byte) : hexlify b1 = hexlify b2 -> b1 = b2.
Proof.
  revert b2. induction b1 as [|x b1 IH]; intros [|y b2] H;
    try discriminate; [reflexivity|].
  simpl in H. injection H as Hhi Hlo Hrest.
  pose proof (Byte.to_N_bounded x) as Hx.
  pose proof (Byte.to_N_bounded y) as Hy.
  f_equal; [|apply IH, Hrest].
  apply byte_of_nibbles.
  - apply hex_digit_inj; try assumption;
      apply N.Div0.div_lt_upper_bound; lia.
  - apply hex_digit_inj; try assumption; apply N.mod_lt; discriminate.
Qed.

(** X7: both address warnings show the address as ["0x"] followed by two
    lower-case hexadecimal digits for each byte, so that an address of
    [n] bytes takes [2 + 2n] characters. *)
Theorem address_warnings_show_hex (address_bytes : list byte) :
  exists h,
    address_text (require_confirm_unknown_token address_bytes) = "0x" ++ h /\
    address_text (require_confirm_address address_bytes) = "0x" ++ h /\
    String.length h = (2 * List.length address_bytes)%nat /\
    all_lower_hex h = true.
Proof.
  exists (hexlify address_bytes). repeat split.
  - apply hexlify_length.
  - apply hexlify_lower_hex.
Qed.

(** X8: the address warnings tell addresses apart: two different byte
    strings are never shown as the same text. *)
Theorem address_warnings_distinguish (b1 b2 : list byte) :
  b1 <> b2 ->
  address_text (require_confirm_unknown_token b1)
  <> address_text (require_confirm_unknown_token b2) /\
  address_text (require_confirm_address b1)
  <> address_text (require_confirm_address b2).
Proof.
  intros Hne.
  split; intros H; simpl in H; injection H as H;
    apply Hne, hexlify_inj, H.
Qed.

Lemma address_warnings_distinguish_witness :
  address_text (require_confirm_unknown_token [x2a])
  <> address_text (require_confirm_unknown_token [x2b]) /\
  address_text (require_confirm_address [x2a])
  <> address_text (require_confirm_address [x2b]).
Proof. apply (address_warnings_distinguish [x2a] [x2b]). discriminate. Defined.

(** ** Whole amounts *)

Lemma rstrip_run (c : ascii) (n : nat) :
  Py.rstrip c (Py.replicate n c ++ String c "") = "".
Proof.
  induction n as [|n IH]; simpl.
  - rewrite Ascii.eqb_refl. reflexivity.
  - simpl in IH. rewrite IH, Ascii.eqb_refl. reflexivity.
Qed.

(** A whole number of units is rendered without a fractional part. *)
Lemma format_amount_whole (k d : Z) :
  0 <= k -> 0 <= d -> format_amount (k * 10 ^ d) d = Py.str k.
Proof.
  intros Hk Hd.
  assert (Hpow : 0 < 10 ^ d) by (apply Z.pow_pos_nonneg; lia).
  unfold format_amount.
  destruct (Z.ltb_spec (k * 10 ^ d) 0) as [|_]; [nia|].
  rewrite Z.abs_eq by nia.
  rewrite Z.div_mul, Z.mod_mul by lia.
  change (Py.zfill d (Py.str 0))
    with (Py.replicate (Z.to_nat (d - 1)) "0" ++ String "0" "").
  change ("" ++ Py.str k ++ "." ++ ?z) with (Py.str k ++ String "." z).
  rewrite rstrip_app_keep by reflexivity.
  rewrite rstrip_run.
  apply rstrip_point, str_nonneg_digits, Hk.
Qed.

(** X9: the amount zero is shown as ["0 Wei "] and the symbol in a
    currency of more than 9 decimals, and as ["0 "] and the symbol in a
    currency of 0 to 9 decimals. *)
Theorem format_ethereum_amount_zero
    (token : option EthereumTokenInfo) (network : EthereumNetworkInfo) :
  0 <= currency_decimals token ->
  format_ethereum_amount 0 token network
  = (if currency_decimals token >? 9 then "0 Wei " else "0 ")
    ++ currency_symbol token network.
Proof.
  intros Hd.
  destruct (Z.gtb_spec (currency_decimals token) 9) as [Hbig|Hsmall].
  - rewrite format_ethereum_amount_dust.
    + reflexivity.
    + lia.
    + apply Z.pow_pos_nonneg; lia.
  - rewrite format_ethereum_amount_plain by (left; assumption).
    replace 0 with (0 * 10 ^ currency_decimals token) at 1 by lia.
    rewrite format_amount_whole by lia.
    reflexivity.
Qed.

Lemma format_ethereum_amount_zero_witness :
  format_ethereum_amount 0 None mainnet = "0 Wei ETH" /\
  format_ethereum_amount 0 (Some {| symbol := "USDT"; decimals := 6 |})
    mainnet = "0 USDT".
Proof.
  split.
  - apply (format_ethereum_amount_zero None mainnet). simpl. lia.
  - apply (format_ethereum_amount_zero
             (Some {| symbol := "USDT"; decimals := 6 |}) mainnet).
    simpl. lia.
Defined.


